(** * Chargily Pay JavaScript client: webhook verifier and request dispatcher

    A shallow embedding of [src/classes/client.ts] (the [ChargilyClient]
    class) and of [verifySignature] (the webhook signature verifier), with
    the properties of the library's specification stated and proved over
    it.

    Layout:
    - [Js]: the JavaScript values the code manipulates (strings as UTF-16
      code units, buffers as byte lists, completions, errors);
    - [Sha256], [Hmac]: the hash primitive behind Node's
      [crypto.createHmac('sha256', key)], after FIPS 180-4 and RFC 2104;
    - [Node]: the runtime effects (console, crypto, fetch) as a state and
      error monad over an observable [World];
    - [Webhook]: [verifySignature];
    - [Client]: [ChargilyClient], its [request] method and public methods. *)

From Stdlib Require Import Arith NArith List String Ascii Bool Lia.
From Stdlib Require Import Strings.Byte Numbers.DecimalString.
Import ListNotations.

Local Open Scope N_scope.

(* ================================================================== *)
(** ** JavaScript data *)

Module Js.

(** A JavaScript string is a sequence of UTF-16 code units. *)
Definition jsstring := list N.

(** A string literal of the source text (ASCII only in this code base). *)
Definition js (s : string) : jsstring :=
  map N_of_ascii (list_ascii_of_string s).

(** A Node [Buffer]: a sequence of octets. *)
Definition Buffer := list byte.

(** The octet holding the low eight bits of [n]. *)
Definition byte_of_N (n : N) : byte :=
  match Byte.of_N (n mod 256) with
  | Some b => b
  | None => x00
  end.

(** [s.startsWith(prefix)] *)
Fixpoint startsWith (s prefix : jsstring) : bool :=
  match prefix, s with
  | [], _ => true
  | _ :: _, [] => false
  | p :: prefix', c :: s' => (c =? p) && startsWith s' prefix'
  end.

(** [a === b] on strings. *)
Fixpoint str_eqb (a b : jsstring) : bool :=
  match a, b with
  | [], [] => true
  | x :: a', y :: b' => (x =? y) && str_eqb a' b'
  | _, _ => false
  end.

(** Truthiness of a string: only the empty string is falsy. *)
Definition truthy_string (s : jsstring) : bool :=
  match s with
  | [] => false
  | _ :: _ => true
  end.

(** An [Error] object: its [name] and its [message]. *)
Record JsError := mkError { err_name : jsstring; err_message : jsstring }.

(** [new Error(message)] *)
Definition Error (message : jsstring) : JsError :=
  mkError (js "Error") message.

(** [`${error}`]: [Error.prototype.toString]. *)
Definition error_toString (e : JsError) : jsstring :=
  match err_name e, err_message e with
  | [], m => m
  | n, [] => n
  | n, m => n ++ js ": " ++ m
  end.

(** How an evaluation ends: with a value or with a thrown error
    (for an [async] function: a resolved or a rejected promise). *)
Inductive Completion (A : Type) : Type :=
| Return (a : A)
| Throw (e : JsError).
Arguments Return {A} a.
Arguments Throw {A} e.

(** Decimal rendering of a non-negative integer, as [`${n}`] gives it. *)
Definition decimal (n : N) : jsstring :=
  js (NilEmpty.string_of_uint (N.to_uint n)).

(** *** [Buffer.from(s, 'utf8')] *)

Definition is_high_surrogate (c : N) : bool := (0xD800 <=? c) && (c <? 0xDC00).
Definition is_low_surrogate (c : N) : bool := (0xDC00 <=? c) && (c <? 0xE000).

(** The three octets of a code unit of the basic plane above U+07FF. *)
Definition utf8_three (c : N) : Buffer :=
  [ byte_of_N (N.lor 0xE0 (N.shiftr c 12));
    byte_of_N (N.lor 0x80 (N.land (N.shiftr c 6) 0x3F));
    byte_of_N (N.lor 0x80 (N.land c 0x3F)) ].

(** The four octets of the code point of a surrogate pair. *)
Definition utf8_pair (hi lo : N) : Buffer :=
  let cp := 0x10000 + N.shiftl (hi - 0xD800) 10 + (lo - 0xDC00) in
  [ byte_of_N (N.lor 0xF0 (N.shiftr cp 18));
    byte_of_N (N.lor 0x80 (N.land (N.shiftr cp 12) 0x3F));
    byte_of_N (N.lor 0x80 (N.land (N.shiftr cp 6) 0x3F));
    byte_of_N (N.lor 0x80 (N.land cp 0x3F)) ].

(** U+FFFD, which replaces an unpaired surrogate. *)
Definition utf8_replacement : Buffer := [xef; xbf; xbd].

Fixpoint Buffer_from_utf8 (s : jsstring) : Buffer :=
  match s with
  | [] => []
  | c :: rest =>
      if c <? 0x80 then byte_of_N c :: Buffer_from_utf8 rest
      else if c <? 0x800 then
        byte_of_N (N.lor 0xC0 (N.shiftr c 6))
          :: byte_of_N (N.lor 0x80 (N.land c 0x3F))
          :: Buffer_from_utf8 rest
      else if is_high_surrogate c then
        match rest with
        | d :: rest' =>
            if is_low_surrogate d
            then utf8_pair c d ++ Buffer_from_utf8 rest'
            else utf8_replacement ++ Buffer_from_utf8 rest
        | [] => utf8_replacement
        end
      else if is_low_surrogate c then
        utf8_replacement ++ Buffer_from_utf8 rest
      else utf8_three c ++ Buffer_from_utf8 rest
  end.

(** *** [buffer.toString('hex')] *)

(** The code unit of a hexadecimal digit, lowercase. *)
Definition hex_digit (d : N) : N :=
  if d <? 10 then 48 + d else 87 + d.

Definition hex_of_byte (b : byte) : jsstring :=
  let n := Byte.to_N b in
  [hex_digit (n / 16); hex_digit (n mod 16)].

Definition hex (buf : Buffer) : jsstring := flat_map hex_of_byte buf.

(** The characters [0-9a-f]. *)
Definition is_lower_hex (c : N) : bool :=
  ((48 <=? c) && (c <=? 57)) || ((97 <=? c) && (c <=? 102)).

End Js.
Export Js.

(* ================================================================== *)
(** ** SHA-256 (FIPS 180-4) on 32-bit words held in [N] *)

Module Sha256.

Definition mask32 : N := 0xFFFFFFFF.
Definition add32 (a b : N) : N := (a + b) mod 0x100000000.
Definition not32 (a : N) : N := N.lxor a mask32.
Definition rotr (n a : N) : N :=
  N.lor (N.shiftr a n) (N.land (N.shiftl a (32 - n)) mask32).

Definition Ch (x y z : N) : N := N.lxor (N.land x y) (N.land (not32 x) z).
Definition Maj (x y z : N) : N :=
  N.lxor (N.lxor (N.land x y) (N.land x z)) (N.land y z).
Definition Sigma0 (x : N) : N := N.lxor (N.lxor (rotr 2 x) (rotr 13 x)) (rotr 22 x).
Definition Sigma1 (x : N) : N := N.lxor (N.lxor (rotr 6 x) (rotr 11 x)) (rotr 25 x).
Definition sigma0 (x : N) : N := N.lxor (N.lxor (rotr 7 x) (rotr 18 x)) (N.shiftr x 3).
Definition sigma1 (x : N) : N := N.lxor (N.lxor (rotr 17 x) (rotr 19 x)) (N.shiftr x 10).

(** The primes the constants of the standard are drawn from. *)
Definition primes64 : list N :=
  [ 2; 3; 5; 7; 11; 13; 17; 19; 23; 29; 31; 37; 41; 43; 47; 53;
    59; 61; 67; 71; 73; 79; 83; 89; 97; 101; 103; 107; 109; 113; 127; 131;
    137; 139; 149; 151; 157; 163; 167; 173; 179; 181; 191; 193; 197; 199;
    211; 223; 227; 229; 233; 239; 241; 251; 257; 263; 269; 271; 277; 281;
    283; 293; 307; 311 ].

(** The integer cube root of [n], one bit at a time from bit [bits - 1]. *)
Fixpoint cube_root (bits : nat) (n r : N) : N :=
  match bits with
  | O => r
  | S b =>
      let c := r + 2 ^ N.of_nat b in
      cube_root b n (if c * c * c <=? n then c else r)
  end.

(** The first 32 bits of the fractional part of a cube root, of a square
    root. *)
Definition frac_cbrt32 (p : N) : N := cube_root 36 (p * 2 ^ 96) 0 mod 2 ^ 32.
Definition frac_sqrt32 (p : N) : N := N.sqrt (p * 2 ^ 64) mod 2 ^ 32.

(** The round constants: from the cube roots of the first 64 primes. *)
Definition K : list N := Eval vm_compute in map frac_cbrt32 primes64.

(** The eight working variables, and the chaining value. *)
Record Regs := mkRegs { ra : N; rb : N; rc : N; rd : N;
                        re : N; rf : N; rg : N; rh : N }.

(** The initial value: from the square roots of the first 8 primes. *)
Definition H0 : Regs :=
  Eval vm_compute in
    mkRegs (frac_sqrt32 2) (frac_sqrt32 3) (frac_sqrt32 5) (frac_sqrt32 7)
           (frac_sqrt32 11) (frac_sqrt32 13) (frac_sqrt32 17) (frac_sqrt32 19).

(** Big-endian words of a 64-octet block. *)
Fixpoint words_of (bs : list byte) : list N :=
  match bs with
  | b0 :: b1 :: b2 :: b3 :: rest =>
      (Byte.to_N b0 * 0x1000000 + Byte.to_N b1 * 0x10000
       + Byte.to_N b2 * 0x100 + Byte.to_N b3) :: words_of rest
  | _ => []
  end.

(** The message schedule, newest word first: [extend n w] adds [n] words. *)
Fixpoint extend (n : nat) (w : list N) : list N :=
  match n with
  | O => w
  | S n' =>
      let x := add32 (add32 (sigma1 (nth 1 w 0)) (nth 6 w 0))
                     (add32 (sigma0 (nth 14 w 0)) (nth 15 w 0)) in
      extend n' (x :: w)
  end.

Definition schedule (block : list byte) : list N :=
  rev (extend 48 (rev (words_of block))).

Definition round (r : Regs) (kw : N * N) : Regs :=
  let t1 := add32 (add32 (add32 (rh r) (Sigma1 (re r)))
                         (add32 (Ch (re r) (rf r) (rg r)) (fst kw))) (snd kw) in
  let t2 := add32 (Sigma0 (ra r)) (Maj (ra r) (rb r) (rc r)) in
  mkRegs (add32 t1 t2) (ra r) (rb r) (rc r) (add32 (rd r) t1) (re r) (rf r) (rg r).

Definition compress (h : Regs) (block : list byte) : Regs :=
  let r := fold_left round (combine K (schedule block)) h in
  mkRegs (add32 (ra h) (ra r)) (add32 (rb h) (rb r))
         (add32 (rc h) (rc r)) (add32 (rd h) (rd r))
         (add32 (re h) (re r)) (add32 (rf h) (rf r))
         (add32 (rg h) (rg r)) (add32 (rh h) (rh r)).

(** Big-endian octets of the low [8 * n] bits of [x]. *)
Fixpoint be_bytes (n : nat) (x : N) : list byte :=
  match n with
  | O => []
  | S n' => byte_of_N (N.shiftr x (8 * N.of_nat n')) :: be_bytes n' x
  end.

(** Padding: a one bit, zero bits up to 56 modulo 64 octets, and the bit
    length on eight octets. *)
Definition pad (msg : list byte) : list byte :=
  let len := N.of_nat (List.length msg) in
  let zeros := N.to_nat ((119 - len mod 64) mod 64) in
  msg ++ x80 :: repeat x00 zeros ++ be_bytes 8 (8 * len).

Fixpoint absorb (blocks : nat) (h : Regs) (data : list byte) : Regs :=
  match blocks with
  | O => h
  | S n => absorb n (compress h (firstn 64 data)) (skipn 64 data)
  end.

Definition output (h : Regs) : list byte :=
  be_bytes 4 (ra h) ++ be_bytes 4 (rb h) ++ be_bytes 4 (rc h) ++ be_bytes 4 (rd h)
  ++ be_bytes 4 (re h) ++ be_bytes 4 (rf h) ++ be_bytes 4 (rg h) ++ be_bytes 4 (rh h).

Definition sha256 (msg : list byte) : list byte :=
  let padded := pad msg in
  output (absorb (Nat.div (List.length padded) 64) H0 padded).

End Sha256.

(* ================================================================== *)
(** ** HMAC (RFC 2104) over SHA-256 *)

Module Hmac.

Definition block_size : nat := 64.

Definition xor_with (c : N) (b : byte) : byte :=
  byte_of_N (N.lxor (Byte.to_N b) c).

(** The key brought to one block: hashed when longer, then zero filled. *)
Definition block_key (key : list byte) : list byte :=
  let k := if Nat.ltb block_size (List.length key) then Sha256.sha256 key else key in
  k ++ repeat x00 (Nat.sub block_size (List.length k)).

Definition hmac_sha256 (key msg : list byte) : list byte :=
  let k := block_key key in
  Sha256.sha256 (map (xor_with 0x5c) k
                 ++ Sha256.sha256 (map (xor_with 0x36) k ++ msg)).

End Hmac.

(* ================================================================== *)
(** ** The Node runtime: observable effects *)

Module Node.

(** What [fetch(url, init)] is handed. *)
Record HttpRequest := mkRequest {
  req_url : jsstring;
  req_method : jsstring;
  req_headers : list (jsstring * jsstring);
  req_body : option jsstring
}.

(** What a run can leave behind: the lines written to the console, the
    HMAC computations carried out (key and message), the HTTP requests
    issued, each in order. *)
Record World := mkWorld {
  console : list jsstring;
  hmac_runs : list (Buffer * Buffer);
  fetched : list HttpRequest
}.

Definition empty_world : World := mkWorld [] [] [].

(** The state outside a function that a caller can observe afterwards. *)
Definition outside (w : World) : list jsstring * list HttpRequest :=
  (console w, fetched w).

Definition with_console_line (line : jsstring) (w : World) : World :=
  mkWorld (console w ++ [line]) (hmac_runs w) (fetched w).
Definition with_hmac_run (key msg : Buffer) (w : World) : World :=
  mkWorld (console w) (hmac_runs w ++ [(key, msg)]) (fetched w).
Definition with_fetched (rq : HttpRequest) (w : World) : World :=
  mkWorld (console w) (hmac_runs w) (fetched w ++ [rq]).

(** Computations: state passing over [World], ending in a [Completion]. *)
Definition M (A : Type) : Type := World -> Completion A * World.

Definition ret {A} (a : A) : M A := fun w => (Return a, w).
Definition throw {A} (e : JsError) : M A := fun w => (Throw e, w).
Definition bind {A B} (m : M A) (f : A -> M B) : M B :=
  fun w =>
    match m w with
    | (Return a, w') => f a w'
    | (Throw e, w') => (Throw e, w')
    end.

(** [try { m } catch (error) { handler error }] *)
Definition try_catch {A} (m : M A) (handler : JsError -> M A) : M A :=
  fun w =>
    match m w with
    | (Return a, w') => (Return a, w')
    | (Throw e, w') => handler e w'
    end.

(** [console.log(line)] *)
Definition console_log (line : jsstring) : M unit :=
  fun w => (Return tt, with_console_line line w).

(** The [crypto] module, as far as the code uses it:
    [hmac alg key msg] are the octets of
    [crypto.createHmac(alg, key).update(msg).digest()], which for
    ['sha256'] are 32. *)
Class Crypto := {
  hmac : jsstring -> Buffer -> Buffer -> Buffer;
  hmac_sha256_size :
    forall key msg, List.length (hmac (js "sha256") key msg) = 32%nat
}.

(** [crypto.createHmac(alg, key).update(payload).digest('hex')];
    a string key is taken in UTF-8. *)
Definition createHmac_update_digest_hex `{Crypto}
    (alg key : jsstring) (payload : Buffer) : M jsstring :=
  fun w =>
    let k := Buffer_from_utf8 key in
    (Return (hex (hmac alg k payload)), with_hmac_run k payload w).

(** The accumulated difference of two buffers, every octet visited. *)
Fixpoint difference (a b : Buffer) (acc : N) : N :=
  match a, b with
  | x :: a', y :: b' =>
      difference a' b' (N.lor acc (N.lxor (Byte.to_N x) (Byte.to_N y)))
  | _, _ => acc
  end.

(** [crypto.timingSafeEqual(a, b)]: a [RangeError] on buffers of
    different lengths. *)
Definition timingSafeEqual (a b : Buffer) : M bool :=
  if Nat.eqb (List.length a) (List.length b)
  then ret (difference a b 0 =? 0)
  else throw (mkError (js "RangeError")
                      (js "Input buffers must have the same byte length")).

End Node.
Export Node.

Declare Scope js_scope.
Delimit Scope js_scope with js.
Notation "x <- m ;; k" := (bind m (fun x => k))
(at level 61, m at next level, right associativity) : js_scope.
Notation "m ;;; k" := (bind m (fun _ => k))
(at level 61, right associativity) : js_scope.

(* ================================================================== *)
(** ** The webhook signature verifier *)

Module Webhook.
Section Verifier.

Context `{Crypto}.
Local Open Scope js_scope.

Definition sigPrefix : jsstring := [].
Definition sigHashAlg : jsstring := js "sha256".

(** The text the verifier expects as signature. *)
Definition expected_signature (payload : Buffer) (secretKey : jsstring) : jsstring :=
  hex (hmac sigHashAlg (Buffer_from_utf8 secretKey) payload).

Definition verifySignature
    (payload : Buffer) (signature secretKey : jsstring) : M bool :=
  if negb (truthy_string signature) then ret false
  else
    computedSignature <-
      createHmac_update_digest_hex sigHashAlg secretKey payload ;;
    let digest := Buffer_from_utf8 (sigPrefix ++ computedSignature) in
    let signatureBuffer := Buffer_from_utf8 signature in
    invalid <-
      (if negb (Nat.eqb (List.length signatureBuffer) (List.length digest))
       then ret true
       else same <- timingSafeEqual digest signatureBuffer ;; ret (negb same)) ;;
    if (invalid : bool) then throw (Error (js "The signature is invalid."))
    else
      console_log (js "The signature is valid") ;;;
      ret true.

End Verifier.
End Webhook.
Export Webhook.

(* ================================================================== *)
(** ** The API client *)

Module Client.

(** The two base URLs that [client.ts] imports from ['../consts']. *)
Class Consts := {
  CHARGILY_LIVE_URL : jsstring;
  CHARGILY_TEST_URL : jsstring
}.

(** The values the client hands on without looking inside them:
    [number]s, of which it only takes the text and the truthiness, and
    objects of type [any]. *)
Class JsValues := {
  JsNumber : Type;
  Number_literal : N -> JsNumber;
  Number_toString : JsNumber -> jsstring;
  Number_truthy : JsNumber -> bool;
  Json : Type
}.

Section Types.
Context `{JsValues}.

(** [types/param.ts] *)
Record CheckoutItemParams := {
  price : jsstring;
  quantity : JsNumber
}.

Inductive Locale := ar | en | fr.

Record CreateCheckoutParams := {
  items : option (list CheckoutItemParams);
  amount : option JsNumber;
  currency : option jsstring;
  payment_method : option jsstring;
  success_url : jsstring;
  failure_url : option jsstring;
  webhook_endpoint : option jsstring;
  description : option jsstring;
  locale : option Locale;
  pass_fees_to_customer : option bool;
  customer_id : option jsstring;
  shipping_address : option jsstring;
  collect_shipping_address : option bool;
  metadata : option Json
}.

(** What [request] is given as [body]: the checkout parameters, or one of
    the other parameter objects, which the client only serialises. *)
Inductive RequestBody :=
| CheckoutBody (checkout_data : CreateCheckoutParams)
| ParamsBody (data : Json).

(** A [Response] of the Fetch API; [json] is what [response.json()]
    settles to. *)
Record Response := {
  status : N;
  statusText : jsstring;
  json : Completion Json
}.

(** [response.ok]: the status is in the range 200 to 299. *)
Definition ok (response : Response) : bool :=
  (200 <=? status response) && (status response <=? 299).

(** How a [fetch] settles: a response, whatever its status, or a
    rejection (no connection, say). *)
Inductive FetchResult :=
| Responded (response : Response)
| Failed (error : JsError).

(** The [RequestInit] passed to [fetch]. *)
Record RequestInit := {
  method : jsstring;
  headers : list (jsstring * jsstring);
  body : option jsstring
}.

(** Truthiness of an optional property: [undefined] is falsy. *)
Definition truthy_opt {A} (truthy : A -> bool) (x : option A) : bool :=
  match x with
  | None => false
  | Some a => truthy a
  end.

(** An array is truthy, also when empty. *)
Definition truthy_array {A} (xs : list A) : bool := true.

End Types.

(** The platform under the client: [JSON.stringify], and the remote side,
    which answers a request knowing the requests issued before it. *)
Class Platform `{JsValues} := {
  JSON_stringify : RequestBody -> jsstring;
  reply : list HttpRequest -> HttpRequest -> FetchResult
}.

Section ChargilyClient.
Context `{Consts} `{Platform}.
Local Open Scope js_scope.

(** [fetch(url, init)] *)
Definition fetch (url : jsstring) (init : RequestInit) : M Response :=
  fun w =>
    let rq := mkRequest url (method init) (headers init) (body init) in
    let w' := with_fetched rq w in
    match reply (fetched w) rq with
    | Responded response => (Return response, w')
    | Failed error => (Throw error, w')
    end.

Inductive Mode := test | live.

Record ChargilyClientOptions := {
  opt_api_key : jsstring;
  opt_mode : Mode
}.

Record ChargilyClient := {
  api_key : jsstring;
  base_url : jsstring
}.

(** [new ChargilyClient(options)] *)
Definition new_ChargilyClient (options : ChargilyClientOptions) : ChargilyClient :=
  {| api_key := opt_api_key options;
     base_url := match opt_mode options with
                 | test => CHARGILY_TEST_URL
                 | live => CHARGILY_LIVE_URL
                 end |}.

(** [request(endpoint, method = 'GET', body?)]. The promise of
    [response.json()] is returned from inside [try] without [await]: it
    settles once the [try] statement is left, out of reach of [catch]. *)
Definition request (this : ChargilyClient) (endpoint : jsstring)
    (method : option jsstring) (body : option RequestBody) : M Json :=
  let method := match method with Some m => m | None => js "GET" end in
  let url := base_url this ++ js "/" ++ endpoint in
  let headers :=
    [ (js "Authorization", js "Bearer " ++ api_key this);
      (js "Content-Type", js "application/json") ] in
  let fetchOptions := {| method := method; headers := headers; body := None |} in
  let fetchOptions :=
    match body with
    | Some b => {| method := method; headers := headers;
                   body := Some (JSON_stringify b) |}
    | None => fetchOptions
    end in
  pending <-
    try_catch
      (response <- fetch url fetchOptions ;;
       if negb (ok response) then
         throw (Error (js "API request failed with status "
                         ++ decimal (status response) ++ js ": "
                         ++ statusText response))
       else ret (json response))
      (fun error =>
         throw (Error (js "Failed to make API request: " ++ error_toString error))) ;;
  match pending with
  | Return value => ret value
  | Throw error => throw error
  end.

(** [per_page: number = 10] *)
Definition per_page_or_default (per_page : option JsNumber) : JsNumber :=
  match per_page with
  | Some n => n
  | None => Number_literal 10
  end.

Definition GET : option jsstring := Some (js "GET").
Definition POST : option jsstring := Some (js "POST").
Definition PATCH : option jsstring := Some (js "PATCH").
Definition DELETE : option jsstring := Some (js "DELETE").

Definition getBalance (this : ChargilyClient) : M Json :=
  request this (js "balance") GET None.

Definition createCustomer (this : ChargilyClient) (customer_data : Json) : M Json :=
  request this (js "customers") POST (Some (ParamsBody customer_data)).

Definition getCustomer (this : ChargilyClient) (customer_id : jsstring) : M Json :=
  request this (js "customers/" ++ customer_id) GET None.

Definition updateCustomer (this : ChargilyClient) (customer_id : jsstring)
    (update_data : Json) : M Json :=
  request this (js "customers/" ++ customer_id) PATCH (Some (ParamsBody update_data)).

Definition deleteCustomer (this : ChargilyClient) (customer_id : jsstring) : M Json :=
  request this (js "customers/" ++ customer_id) DELETE None.

Definition listCustomers (this : ChargilyClient) (per_page : option JsNumber) : M Json :=
  let endpoint :=
    js "customers?per_page=" ++ Number_toString (per_page_or_default per_page) in
  response <- request this endpoint GET None ;;
  ret response.

Definition createProduct (this : ChargilyClient) (product_data : Json) : M Json :=
  request this (js "products") POST (Some (ParamsBody product_data)).

Definition updateProduct (this : ChargilyClient) (product_id : jsstring)
    (update_data : Json) : M Json :=
  request this (js "products/" ++ product_id) POST (Some (ParamsBody update_data)).

Definition getProduct (this : ChargilyClient) (product_id : jsstring) : M Json :=
  request this (js "products/" ++ product_id) GET None.

Definition listProducts (this : ChargilyClient) (per_page : option JsNumber) : M Json :=
  let endpoint :=
    js "products?per_page=" ++ Number_toString (per_page_or_default per_page) in
  response <- request this endpoint GET None ;;
  ret response.

Definition deleteProduct (this : ChargilyClient) (product_id : jsstring) : M Json :=
  request this (js "products/" ++ product_id) DELETE None.

Definition getProductPrices (this : ChargilyClient) (product_id : jsstring)
    (per_page : option JsNumber) : M Json :=
  let endpoint :=
    js "products/" ++ product_id ++ js "/prices?per_page="
       ++ Number_toString (per_page_or_default per_page) in
  response <- request this endpoint GET None ;;
  ret response.

Definition createPrice (this : ChargilyClient) (price_data : Json) : M Json :=
  request this (js "prices") POST (Some (ParamsBody price_data)).

Definition updatePrice (this : ChargilyClient) (price_id : jsstring)
    (update_data : Json) : M Json :=
  request this (js "prices/" ++ price_id) POST (Some (ParamsBody update_data)).

Definition getPrice (this : ChargilyClient) (price_id : jsstring) : M Json :=
  request this (js "prices/" ++ price_id) GET None.

Definition listPrices (this : ChargilyClient) (per_page : option JsNumber) : M Json :=
  let endpoint :=
    js "prices?per_page=" ++ Number_toString (per_page_or_default per_page) in
  response <- request this endpoint GET None ;;
  ret response.

Definition createCheckout (this : ChargilyClient)
    (checkout_data : CreateCheckoutParams) : M Json :=
  if negb (startsWith (success_url checkout_data) (js "http"))
     && negb (startsWith (success_url checkout_data) (js "https"))
  then throw (Error (js "Invalid success_url, it must begin with http or https."))
  else if negb (truthy_opt truthy_array (items checkout_data))
          && (negb (truthy_opt Number_truthy (amount checkout_data))
              || negb (truthy_opt truthy_string (currency checkout_data)))
  then throw (Error (js "The items field is required when amount and currency are not present."))
  else request this (js "checkouts") POST (Some (CheckoutBody checkout_data)).

Definition getCheckout (this : ChargilyClient) (checkout_id : jsstring) : M Json :=
  request this (js "checkouts/" ++ checkout_id) GET None.

Definition listCheckouts (this : ChargilyClient) (per_page : option JsNumber) : M Json :=
  let endpoint :=
    js "checkouts?per_page=" ++ Number_toString (per_page_or_default per_page) in
  response <- request this endpoint GET None ;;
  ret response.

Definition getCheckoutItems (this : ChargilyClient) (checkout_id : jsstring)
    (per_page : option JsNumber) : M Json :=
  let endpoint :=
    js "checkouts/" ++ checkout_id ++ js "/items?per_page="
       ++ Number_toString (per_page_or_default per_page) in
  response <- request this endpoint GET None ;;
  ret response.

Definition expireCheckout (this : ChargilyClient) (checkout_id : jsstring) : M Json :=
  request this (js "checkouts/" ++ checkout_id ++ js "/expire") POST None.

Definition createPaymentLink (this : ChargilyClient) (payment_link_data : Json) : M Json :=
  request this (js "payment-links") POST (Some (ParamsBody payment_link_data)).

Definition updatePaymentLink (this : ChargilyClient) (payment_link_id : jsstring)
    (update_data : Json) : M Json :=
  request this (js "payment-links/" ++ payment_link_id) POST
          (Some (ParamsBody update_data)).

Definition getPaymentLink (this : ChargilyClient) (payment_link_id : jsstring) : M Json :=
  request this (js "payment-links/" ++ payment_link_id) GET None.

Definition listPaymentLinks (this : ChargilyClient) (per_page : option JsNumber) : M Json :=
  let endpoint :=
    js "payment-links?per_page=" ++ Number_toString (per_page_or_default per_page) in
  response <- request this endpoint GET None ;;
  ret response.

Definition getPaymentLinkItems (this : ChargilyClient) (payment_link_id : jsstring)
    (per_page : option JsNumber) : M Json :=
  let endpoint :=
    js "payment-links/" ++ payment_link_id ++ js "/items?per_page="
       ++ Number_toString (per_page_or_default per_page) in
  response <- request this endpoint GET None ;;
  ret response.

(** A call of one of the public methods, with its arguments. *)
Inductive Call :=
| GetBalance
| CreateCustomer (customer_data : Json)
| GetCustomer (customer_id : jsstring)
| UpdateCustomer (customer_id : jsstring) (update_data : Json)
| DeleteCustomer (customer_id : jsstring)
| ListCustomers (per_page : option JsNumber)
| CreateProduct (product_data : Json)
| UpdateProduct (product_id : jsstring) (update_data : Json)
| GetProduct (product_id : jsstring)
| ListProducts (per_page : option JsNumber)
| DeleteProduct (product_id : jsstring)
| GetProductPrices (product_id : jsstring) (per_page : option JsNumber)
| CreatePrice (price_data : Json)
| UpdatePrice (price_id : jsstring) (update_data : Json)
| GetPrice (price_id : jsstring)
| ListPrices (per_page : option JsNumber)
| CreateCheckout (checkout_data : CreateCheckoutParams)
| GetCheckout (checkout_id : jsstring)
| ListCheckouts (per_page : option JsNumber)
| GetCheckoutItems (checkout_id : jsstring) (per_page : option JsNumber)
| ExpireCheckout (checkout_id : jsstring)
| CreatePaymentLink (payment_link_data : Json)
| UpdatePaymentLink (payment_link_id : jsstring) (update_data : Json)
| GetPaymentLink (payment_link_id : jsstring)
| ListPaymentLinks (per_page : option JsNumber)
| GetPaymentLinkItems (payment_link_id : jsstring) (per_page : option JsNumber).

Definition invoke (this : ChargilyClient) (c : Call) : M Json :=
  match c with
  | GetBalance => getBalance this
  | CreateCustomer d => createCustomer this d
  | GetCustomer id => getCustomer this id
  | UpdateCustomer id d => updateCustomer this id d
  | DeleteCustomer id => deleteCustomer this id
  | ListCustomers n => listCustomers this n
  | CreateProduct d => createProduct this d
  | UpdateProduct id d => updateProduct this id d
  | GetProduct id => getProduct this id
  | ListProducts n => listProducts this n
  | DeleteProduct id => deleteProduct this id
  | GetProductPrices id n => getProductPrices this id n
  | CreatePrice d => createPrice this d
  | UpdatePrice id d => updatePrice this id d
  | GetPrice id => getPrice this id
  | ListPrices n => listPrices this n
  | CreateCheckout d => createCheckout this d
  | GetCheckout id => getCheckout this id
  | ListCheckouts n => listCheckouts this n
  | GetCheckoutItems id n => getCheckoutItems this id n
  | ExpireCheckout id => expireCheckout this id
  | CreatePaymentLink d => createPaymentLink this d
  | UpdatePaymentLink id d => updatePaymentLink this id d
  | GetPaymentLink id => getPaymentLink this id
  | ListPaymentLinks n => listPaymentLinks this n
  | GetPaymentLinkItems id n => getPaymentLinkItems this id n
  end.

End ChargilyClient.
End Client.
Export Client.

(* ================================================================== *)
(** ** The example webhook endpoint of the README *)

Module Endpoint.
Section Handler.
Context `{Crypto}.

(** The parsed body of the webhook request, and the text [console.log]
    prints for it. *)
Variable Event : Type.
Variable inspect : Event -> jsstring.

(** [const API_SECRET_KEY = '...'], the key of the account. *)
Variable API_SECRET_KEY : jsstring.

Local Open Scope js_scope.

(** The parts of the Express request the handler reads: the [signature]
    header ([req.get] gives [undefined] when it is missing), the raw body
    kept by the body parser, the parsed body. *)
Record Req := {
  get_signature : option jsstring;
  rawBody : Buffer;
  body : Event
}.

(** The Express response, as the statuses sent on it, in order. *)
Definition Res := list N.

(** [res.sendStatus(code)] *)
Definition sendStatus (code : N) (res : Res) : Res := res ++ [code].

(** [x || ''] on an optional string. *)
Definition or_empty (x : option jsstring) : jsstring :=
  match x with
  | Some s => if truthy_string s then s else []
  | None => []
  end.

(** [app.post('/webhook', (req, res) => { ... })]. The [try] statement
    gives [Some] response when the handler returned inside it, [None]
    when control goes on after it. *)
Definition webhook (req : Req) (res : Res) : M Res :=
  let signature := or_empty (get_signature req) in
  let payload := rawBody req in
  if negb (truthy_string signature) then
    console_log (js "Signature header is missing") ;;;
    ret (sendStatus 400 res)
  else
    returned <-
      try_catch
        (valid <- verifySignature payload signature API_SECRET_KEY ;;
         if negb valid then
           console_log (js "Signature is invalid") ;;;
           ret (Some (sendStatus 403 res))
         else ret None)
        (fun error =>
           console_log
             (js "Something happened while trying to process the request to the webhook") ;;;
           ret (Some (sendStatus 403 res))) ;;
    match returned with
    | Some res' => ret res'
    | None =>
        let event := body req in
        console_log (inspect event) ;;;
        ret (sendStatus 200 res)
    end.

End Handler.

Arguments get_signature {Event} _.
Arguments rawBody {Event} _.
Arguments body {Event} _.

End Endpoint.
Export Endpoint.

(* ================================================================== *)
(** ** Sample instances and data *)

(** The crypto module of the Node runtime on its ['sha256'] algorithm
    (the buffer returned for any other name is of no account here). *)
Definition node_crypto : Crypto := {|
  hmac alg key msg :=
    if str_eqb alg (js "sha256") then Hmac.hmac_sha256 key msg
    else repeat x00 32;
  hmac_sha256_size := fun key msg => eq_refl
|}.

Definition bytes_of_ascii (s : string) : Buffer :=
  map byte_of_ascii (list_ascii_of_string s).

Definition dquote : string := String (ascii_of_nat 34) EmptyString.

(** The scenario of the specification: a [checkout.paid] event. *)
Definition scenario_secret : jsstring := js "whsec_test123".
Definition scenario_payload : Buffer :=
  bytes_of_ascii
    ("{" ++ dquote ++ "type" ++ dquote ++ ":" ++ dquote ++ "checkout.paid"
         ++ dquote ++ "," ++ dquote ++ "id" ++ dquote ++ ":" ++ dquote
         ++ "chk_1" ++ dquote ++ "}")%string.
Definition scenario_signature : jsstring :=
  js "ae469e701e8ff90c24e1ab028eb80f7aa6f1af5c8a2ecf4d6499a774464f2fee".

(** A client setting to run the methods in: numbers that are
    non-negative integers, objects held as their JSON text, and a remote
    side that answers every request with the same status. *)
Definition sample_consts : Consts := {|
  CHARGILY_LIVE_URL := js "https://pay.chargily.net/api/v2";
  CHARGILY_TEST_URL := js "https://pay.chargily.net/test/api/v2"
|}.

Definition sample_values : JsValues := {|
  JsNumber := N;
  Number_literal := fun n => n;
  Number_toString := decimal;
  Number_truthy := fun n => negb (n =? 0);
  Json := jsstring
|}.

Definition sample_response (code : N) : @Response sample_values :=
  @Build_Response sample_values code
    (if code =? 200 then js "OK" else js "Internal Server Error")
    (Return (js "{}")).

Definition sample_platform (code : N) : @Platform sample_values :=
  @Build_Platform sample_values
    (fun b =>
       match b with
       | CheckoutBody checkout_data => js "{...}"
       | ParamsBody data => data
       end)
    (fun _ _ => @Responded sample_values (sample_response code)).

Definition sample_options : ChargilyClientOptions :=
  {| opt_api_key := js "test_sk_123"; opt_mode := test |}.

Definition sample_checkout (url : jsstring)
    (items : option (list (@CheckoutItemParams sample_values)))
    (amount : option N) (currency : option jsstring)
  : @CreateCheckoutParams sample_values :=
  @Build_CreateCheckoutParams sample_values
    items amount currency None url None None None None None None None None None.

(** The sample client, and the request its [getBalance] sends. *)
Definition sample_client : ChargilyClient :=
  @new_ChargilyClient sample_consts sample_options.

Definition sample_balance_request : HttpRequest :=
  mkRequest (js "https://pay.chargily.net/test/api/v2/balance") (js "GET")
            [ (js "Authorization", js "Bearer test_sk_123");
              (js "Content-Type", js "application/json") ]
            None.

(** A webhook request of the scenario, its event held as text. *)
Definition sample_req (signature : option jsstring) : Req jsstring :=
  {| get_signature := signature;
     rawBody := scenario_payload;
     body := js "checkout.paid" |}.

(** A remote side that fails to answer, one that answers [200] with a
    body that is not JSON, and the number zero. *)
Definition offline_platform : @Platform sample_values :=
  @Build_Platform sample_values
    (fun _ => js "{...}")
    (fun _ _ => @Failed sample_values (mkError (js "TypeError") (js "fetch failed"))).

Definition garbled_platform : @Platform sample_values :=
  @Build_Platform sample_values
    (fun _ => js "{...}")
    (fun _ _ =>
       @Responded sample_values
         (@Build_Response sample_values 200 (js "OK")
            (Throw (mkError (js "SyntaxError") (js "Unexpected token"))))).

(* ================================================================== *)
(** * Properties *)

(** ** Octets, UTF-8 and hexadecimal text *)

Lemma to_N_byte_of_N (n : N) : Byte.to_N (byte_of_N n) = n mod 256.
Proof.
  unfold byte_of_N.
  destruct (Byte.of_N (n mod 256)) as [b|] eqn:E.
  - now apply Byte.to_of_N.
  - apply Byte.of_N_None_iff in E.
    pose proof (N.mod_upper_bound n 256). lia.
Qed.

Lemma to_N_inj (a b : byte) : Byte.to_N a = Byte.to_N b -> a = b.
Proof.
  intros E.
  pose proof (Byte.of_to_N a) as Ha. pose proof (Byte.of_to_N b) as Hb.
  rewrite E in Ha. congruence.
Qed.

Lemma byte_of_N_small_inj (a b : N) :
  a < 256 -> b < 256 -> byte_of_N a = byte_of_N b -> a = b.
Proof.
  intros Ha Hb E. apply (f_equal Byte.to_N) in E.
  rewrite !to_N_byte_of_N, !N.mod_small in E; assumption.
Qed.

(** An octet built by or-ing onto a lead pattern with its top bit set is
    not an ASCII octet. *)
Lemma lead_octet_high (lead x : N) :
  N.testbit lead 7 = true -> 128 <= Byte.to_N (byte_of_N (N.lor lead x)).
Proof.
  intros Hbit. rewrite to_N_byte_of_N.
  set (m := N.lor lead x mod 256).
  assert (Hm : N.testbit m 7 = true).
  { unfold m. change 256 with (2 ^ 8).
    rewrite N.mod_pow2_bits_low by lia.
    rewrite N.lor_spec, Hbit. reflexivity. }
  destruct (N.lt_ge_cases m 128) as [Hlt | Hge]; [ | exact Hge ].
  rewrite N.testbit_eqb in Hm.
  change (2 ^ 7) with 128 in Hm.
  rewrite N.div_small in Hm by exact Hlt. discriminate.
Qed.

Lemma utf8_head_non_ascii (c : N) (rest : jsstring) :
  128 <= c ->
  exists b tl, Buffer_from_utf8 (c :: rest) = b :: tl /\ 128 <= Byte.to_N b.
Proof.
  intros Hc. cbn [Buffer_from_utf8].
  destruct (c <? 128) eqn:E1; [ apply N.ltb_lt in E1; lia | ].
  destruct (c <? 2048).
  { eexists _, _. split; [ reflexivity | now apply lead_octet_high ]. }
  destruct (is_high_surrogate c).
  { destruct rest as [ | d rest'].
    - eexists _, _. split; [ reflexivity | ]. vm_compute. discriminate.
    - destruct (is_low_surrogate d).
      + eexists _, _. split; [ reflexivity | now apply lead_octet_high ].
      + eexists _, _. split; [ reflexivity | ]. vm_compute. discriminate. }
  destruct (is_low_surrogate c).
  { eexists _, _. split; [ reflexivity | ]. vm_compute. discriminate. }
  eexists _, _. split; [ reflexivity | now apply lead_octet_high ].
Qed.

(** ASCII text is encoded octet for code unit. *)
Lemma utf8_ascii (s : jsstring) :
  Forall (fun c => c < 128) s -> Buffer_from_utf8 s = map byte_of_N s.
Proof.
  induction 1 as [ | c s Hc _ IH]; [ reflexivity | ].
  cbn [Buffer_from_utf8 map].
  apply N.ltb_lt in Hc. rewrite Hc, IH. reflexivity.
Qed.

(** Only an ASCII text itself is encoded as that ASCII text. *)
Lemma utf8_eq_ascii (t : jsstring) :
  Forall (fun c => c < 128) t ->
  forall s, Buffer_from_utf8 s = Buffer_from_utf8 t -> s = t.
Proof.
  intros Ht. rewrite (utf8_ascii t Ht).
  induction Ht as [ | d t Hd Ht IH]; intros s E.
  - destruct s as [ | c rest]; [ reflexivity | exfalso ].
    destruct (N.lt_ge_cases c 128) as [Hc | Hc].
    + cbn [Buffer_from_utf8] in E. apply N.ltb_lt in Hc. rewrite Hc in E.
      discriminate.
    + destruct (utf8_head_non_ascii c rest Hc) as (b & tl & Eb & _).
      rewrite Eb in E. discriminate.
  - destruct s as [ | c rest]; [ discriminate | ].
    destruct (N.lt_ge_cases c 128) as [Hc | Hc].
    + cbn [Buffer_from_utf8 map] in E.
      pose proof Hc as Hc'. apply N.ltb_lt in Hc'. rewrite Hc' in E.
      injection E as E1 E2.
      apply byte_of_N_small_inj in E1; [ | lia | lia ].
      subst d. f_equal. now apply IH.
    + exfalso.
      destruct (utf8_head_non_ascii c rest Hc) as (b & tl & Eb & Hb).
      rewrite Eb in E. cbn [map] in E. injection E as E1 _.
      subst b. rewrite to_N_byte_of_N, N.mod_small in Hb; lia.
Qed.

Lemma hex_length (buf : Buffer) : List.length (hex buf) = (2 * List.length buf)%nat.
Proof.
  induction buf as [ | b buf IH]; [ reflexivity | ].
  cbn [hex flat_map hex_of_byte app List.length] in *.
  fold (hex buf). rewrite IH. lia.
Qed.

Lemma hex_of_byte_lower (b : byte) :
  Forall (fun c => is_lower_hex c = true) (hex_of_byte b).
Proof. destruct b; repeat constructor. Qed.

Lemma hex_lower (buf : Buffer) :
  Forall (fun c => is_lower_hex c = true) (hex buf).
Proof.
  induction buf as [ | b buf IH]; [ constructor | ].
  cbn [hex flat_map]. apply Forall_app. split; [ apply hex_of_byte_lower | exact IH ].
Qed.

Lemma lower_hex_ascii (c : N) : is_lower_hex c = true -> c < 128.
Proof.
  unfold is_lower_hex. intros E.
  apply orb_true_iff in E. destruct E as [E | E];
    apply andb_true_iff in E; destruct E as [_ E]; apply N.leb_le in E; lia.
Qed.

Lemma hex_ascii (buf : Buffer) : Forall (fun c => c < 128) (hex buf).
Proof.
  eapply Forall_impl; [ | apply hex_lower ]. intros c. apply lower_hex_ascii.
Qed.

(** ** [crypto.timingSafeEqual] *)

Lemma difference_zero (a : Buffer) :
  forall (b : Buffer) (acc : N),
    List.length a = List.length b ->
    (difference a b acc = 0 <-> acc = 0 /\ a = b).
Proof.
  induction a as [ | x a IH]; intros [ | y b] acc Hlen; try discriminate.
  - cbn. intuition.
  - cbn [difference]. injection Hlen as Hlen.
    rewrite (IH b _ Hlen), N.lor_eq_0_iff. split.
    + intros [[Hacc Hx] Hab]. apply N.lxor_eq, to_N_inj in Hx.
      subst. auto.
    + intros [Hacc E]. injection E as -> ->.
      rewrite N.lxor_nilpotent. auto.
Qed.

Lemma timingSafeEqual_same (a : Buffer) (w : World) :
  timingSafeEqual a a w = (Return true, w).
Proof.
  unfold timingSafeEqual. rewrite Nat.eqb_refl. unfold ret.
  replace (difference a a 0 =? 0) with true; [ reflexivity | ].
  symmetry. apply N.eqb_eq. apply difference_zero; auto.
Qed.

Lemma timingSafeEqual_differ (a b : Buffer) (w : World) :
  List.length a = List.length b -> a <> b ->
  timingSafeEqual a b w = (Return false, w).
Proof.
  intros Hlen Hne. unfold timingSafeEqual.
  rewrite Hlen, Nat.eqb_refl. unfold ret.
  replace (difference a b 0 =? 0) with false; [ reflexivity | ].
  symmetry. apply N.eqb_neq. intros E.
  apply (difference_zero a b 0 Hlen) in E. tauto.
Qed.

(** ** The verifier *)

Section VerifierFacts.
Context `{Crypto}.

Lemma expected_signature_length (payload : Buffer) (secretKey : jsstring) :
  List.length (expected_signature payload secretKey) = 64%nat.
Proof.
  unfold expected_signature, sigHashAlg.
  rewrite hex_length, hmac_sha256_size. reflexivity.
Qed.

Lemma expected_signature_truthy (payload : Buffer) (secretKey : jsstring) :
  truthy_string (expected_signature payload secretKey) = true.
Proof.
  pose proof (expected_signature_length payload secretKey) as L.
  destruct (expected_signature payload secretKey); [ discriminate | reflexivity ].
Qed.

Lemma truthy_nonempty (s : jsstring) : s <> [] -> truthy_string s = true.
Proof. destruct s; [ congruence | reflexivity ]. Qed.

(** The buffer the signature is compared against. *)
Lemma digest_buffer (payload : Buffer) (secretKey : jsstring) :
  Buffer_from_utf8 (sigPrefix ++ expected_signature payload secretKey)
  = map byte_of_N (expected_signature payload secretKey).
Proof. cbn [sigPrefix app]. apply utf8_ascii, hex_ascii. Qed.

(** The three ways a call ends. *)
Lemma verifySignature_absent (payload : Buffer) (secretKey : jsstring) (w : World) :
  verifySignature payload [] secretKey w = (Return false, w).
Proof. reflexivity. Qed.

Lemma verifySignature_match (payload : Buffer) (secretKey : jsstring) (w : World) :
  verifySignature payload (expected_signature payload secretKey) secretKey w
  = (Return true,
     with_console_line (js "The signature is valid")
       (with_hmac_run (Buffer_from_utf8 secretKey) payload w)).
Proof.
  unfold verifySignature.
  rewrite expected_signature_truthy. cbn [negb].
  unfold bind at 1. unfold createHmac_update_digest_hex.
  fold (expected_signature payload secretKey).
  cbn [sigPrefix app].
  unfold bind at 1. rewrite Nat.eqb_refl. cbn [negb].
  unfold bind at 1. rewrite timingSafeEqual_same.
  reflexivity.
Qed.

Lemma verifySignature_mismatch
    (payload : Buffer) (signature secretKey : jsstring) (w : World) :
  signature <> [] ->
  signature <> expected_signature payload secretKey ->
  verifySignature payload signature secretKey w
  = (Throw (Error (js "The signature is invalid.")),
     with_hmac_run (Buffer_from_utf8 secretKey) payload w).
Proof.
  intros Hne Hdiff. unfold verifySignature.
  rewrite (truthy_nonempty _ Hne). cbn [negb].
  unfold bind at 1. unfold createHmac_update_digest_hex.
  fold (expected_signature payload secretKey).
  cbn [sigPrefix app].
  unfold bind at 1.
  destruct (Nat.eqb (List.length (Buffer_from_utf8 signature))
                    (List.length (Buffer_from_utf8 (expected_signature payload secretKey))))
    eqn:Elen; cbn [negb]; [ | reflexivity ].
  apply Nat.eqb_eq in Elen.
  unfold bind at 1. rewrite timingSafeEqual_differ; [ reflexivity | auto | ].
  intros E. apply Hdiff.
  apply utf8_eq_ascii; [ apply hex_ascii | auto ].
Qed.

End VerifierFacts.

Section VerifierClaims.
Context `{Crypto}.

(** C1: for every payload and secret key, [verifySignature] called with the
    lowercase hexadecimal HMAC-SHA256 of the payload under the key as
    signature returns [true]. *)
Theorem verifySignature_accepts_own_digest
    (payload : Buffer) (secretKey : jsstring) (w : World) :
  fst (verifySignature payload
         (hex (hmac (js "sha256") (Buffer_from_utf8 secretKey) payload))
         secretKey w)
  = Return true.
Proof.
  change (hex (hmac (js "sha256") (Buffer_from_utf8 secretKey) payload))
    with (expected_signature payload secretKey).
  rewrite verifySignature_match. reflexivity.
Qed.

(** C2: a non-empty signature other than the hexadecimal digest, of
    whatever length, makes [verifySignature] return [false] or fail with an
    error; it never returns [true]. *)
Theorem verifySignature_rejects_other_signatures
    (payload : Buffer) (signature secretKey : jsstring) (w : World) :
  signature <> [] ->
  signature <> hex (hmac (js "sha256") (Buffer_from_utf8 secretKey) payload) ->
  let r := fst (verifySignature payload signature secretKey w) in
  (r = Return false \/ exists e, r = Throw e) /\ r <> Return true.
Proof.
  intros Hne Hdiff r. subst r.
  rewrite (verifySignature_mismatch payload signature secretKey w Hne Hdiff).
  cbn [fst]. split; [ right; eexists; reflexivity | discriminate ].
Qed.

(** C3: mixed failure discipline. An empty signature makes
    [verifySignature] return [false]; a present signature that does not
    match makes it throw; a caller can tell the two apart. *)
Theorem verifySignature_mixed_failure_discipline
    (payload : Buffer) (secretKey : jsstring) (w : World) :
  fst (verifySignature payload [] secretKey w) = Return false
  /\ (forall signature,
        signature <> [] ->
        signature <> expected_signature payload secretKey ->
        fst (verifySignature payload signature secretKey w)
        = Throw (Error (js "The signature is invalid.")))
  /\ (forall signature,
        signature <> [] ->
        signature <> expected_signature payload secretKey ->
        fst (verifySignature payload signature secretKey w)
        <> fst (verifySignature payload [] secretKey w)).
Proof.
  split; [ reflexivity | split ]; intros signature Hne Hdiff;
    rewrite (verifySignature_mismatch payload signature secretKey w Hne Hdiff);
    [ reflexivity | discriminate ].
Qed.

(** C4: with the empty signature [verifySignature] returns [false] at
    once: nothing is thrown, no HMAC is computed, nothing else happens. *)
Theorem verifySignature_empty_signature
    (payload : Buffer) (secretKey : jsstring) (w : World) :
  fst (verifySignature payload [] secretKey w) = Return false
  /\ hmac_runs (snd (verifySignature payload [] secretKey w)) = hmac_runs w
  /\ snd (verifySignature payload [] secretKey w) = w.
Proof. repeat split. Qed.

(** C6: the text compared with the signature is the hexadecimal HMAC-SHA256
    of the payload keyed with the secret key: 64 characters among [0-9a-f],
    no prefix; the HMAC is computed with that key on that message; and a
    signature whose UTF-8 length is not 64 is never accepted. *)
Theorem verifySignature_digest_format
    (payload : Buffer) (secretKey : jsstring) (w : World) :
  let computed := hex (hmac (js "sha256") (Buffer_from_utf8 secretKey) payload) in
  sigPrefix ++ computed = computed
  /\ List.length computed = 64%nat
  /\ Forall (fun c => is_lower_hex c = true) computed
  /\ List.length (Buffer_from_utf8 (sigPrefix ++ computed)) = 64%nat
  /\ (forall signature,
        fst (verifySignature payload signature secretKey w) = Return true
        <-> signature = computed)
  /\ (forall signature,
        signature <> [] ->
        hmac_runs (snd (verifySignature payload signature secretKey w))
        = hmac_runs w ++ [(Buffer_from_utf8 secretKey, payload)])
  /\ (forall signature,
        List.length (Buffer_from_utf8 signature) <> 64%nat ->
        fst (verifySignature payload signature secretKey w) = Return false
        \/ fst (verifySignature payload signature secretKey w)
           = Throw (Error (js "The signature is invalid."))).
Proof.
  intros computed.
  change computed with (expected_signature payload secretKey).
  assert (Hiff : forall signature,
             fst (verifySignature payload signature secretKey w) = Return true
             <-> signature = expected_signature payload secretKey).
  { intros signature. split.
    - intros Hacc.
      destruct signature as [ | c s]; [ discriminate Hacc | ].
      destruct (list_eq_dec N.eq_dec (c :: s) (expected_signature payload secretKey))
        as [E | Hdiff]; [ exact E | ].
      rewrite verifySignature_mismatch in Hacc by (auto; discriminate).
      discriminate Hacc.
    - intros ->. rewrite verifySignature_match. reflexivity. }
  assert (Hbuf : List.length
                   (Buffer_from_utf8 (sigPrefix ++ expected_signature payload secretKey))
                 = 64%nat).
  { rewrite digest_buffer, length_map. apply expected_signature_length. }
  refine (conj eq_refl (conj _ (conj _ (conj Hbuf (conj Hiff (conj _ _)))))).
  - apply expected_signature_length.
  - apply hex_lower.
  - intros signature Hne.
    destruct (list_eq_dec N.eq_dec signature (expected_signature payload secretKey))
      as [-> | Hdiff].
    + rewrite verifySignature_match. reflexivity.
    + rewrite verifySignature_mismatch by assumption. reflexivity.
  - intros signature Hlen.
    destruct signature as [ | c s]; [ left; reflexivity | right ].
    rewrite verifySignature_mismatch; [ reflexivity | discriminate | ].
    intros E. apply Hlen. rewrite E. exact Hbuf.
Qed.

(** C7, amended: [verifySignature] is deterministic: the outcome for a
    payload, a signature and a key is the same from every state; it
    issues no HTTP request; and its one effect on the state outside it is
    the console line it writes when, and only when, it returns [true]. *)
Theorem verifySignature_deterministic_logging_on_success
    (payload : Buffer) (signature secretKey : jsstring) (w1 w2 : World) :
  fst (verifySignature payload signature secretKey w1)
  = fst (verifySignature payload signature secretKey w2)
  /\ outside (snd (verifySignature payload signature secretKey w1))
     = match fst (verifySignature payload signature secretKey w1) with
       | Return true => (console w1 ++ [js "The signature is valid"], fetched w1)
       | _ => outside w1
       end.
Proof.
  destruct signature as [ | c s]; [ split; reflexivity | ].
  destruct (list_eq_dec N.eq_dec (c :: s) (expected_signature payload secretKey))
    as [-> | Hdiff].
  - rewrite !verifySignature_match. split; reflexivity.
  - rewrite !verifySignature_mismatch by (auto; discriminate).
    split; reflexivity.
Qed.

End VerifierClaims.

(** The scenario of the specification, on the HMAC-SHA256 of FIPS 180-4
    and RFC 2104. *)
Section Scenario.
#[local] Existing Instance node_crypto.

Example scenario_signature_is_expected :
  expected_signature scenario_payload scenario_secret = scenario_signature.
Proof. vm_compute. reflexivity. Qed.

Example sha256_abc :
  hex (Sha256.sha256 (bytes_of_ascii "abc"))
  = js "ba7816bf8f01cfea414140de5dae2223b00361a396177a9cb410ff61f20015ad".
Proof. vm_compute. reflexivity. Qed.

Example hmac_sha256_rfc4231_case2 :
  hex (Hmac.hmac_sha256 (bytes_of_ascii "Jefe")
         (bytes_of_ascii "what do ya want for nothing?"))
  = js "5bdcc146bf60754e6a042426089575c75a003f089d2739839dec58b964ec3843".
Proof. vm_compute. reflexivity. Qed.

Example hmac_sha256_rfc4231_case6 :
  hex (Hmac.hmac_sha256 (repeat xaa 131)
         (bytes_of_ascii "Test Using Larger Than Block-Size Key - Hash Key First"))
  = js "60e431591ee0b67f0d8a26aacbf5b77f8e0bc6213728c5140546040f0ee37f54".
Proof. vm_compute. reflexivity. Qed.

Example scenario_accepted :
  fst (verifySignature scenario_payload scenario_signature scenario_secret empty_world)
  = Return true.
Proof. vm_compute. reflexivity. Qed.

Lemma verifySignature_rejects_other_signatures_witness :
  js "deadbeef" <> []
  /\ js "deadbeef"
     <> hex (hmac (js "sha256") (Buffer_from_utf8 scenario_secret) scenario_payload)
  /\ (let r := fst (verifySignature scenario_payload (js "deadbeef")
                      scenario_secret empty_world) in
      (r = Return false \/ exists e, r = Throw e) /\ r <> Return true).
Proof.
  assert (H1 : js "deadbeef" <> []) by discriminate.
  assert (H2 : js "deadbeef"
               <> hex (hmac (js "sha256") (Buffer_from_utf8 scenario_secret)
                            scenario_payload))
    by (vm_compute; discriminate).
  split; [ exact H1 | split; [ exact H2 | ] ].
  exact (verifySignature_rejects_other_signatures
           scenario_payload (js "deadbeef") scenario_secret empty_world H1 H2).
Defined.

Lemma verifySignature_mixed_failure_discipline_witness :
  js "deadbeef" <> []
  /\ js "deadbeef" <> expected_signature scenario_payload scenario_secret
  /\ fst (verifySignature scenario_payload [] scenario_secret empty_world)
     = Return false
  /\ fst (verifySignature scenario_payload (js "deadbeef") scenario_secret empty_world)
     = Throw (Error (js "The signature is invalid.")).
Proof.
  assert (H1 : js "deadbeef" <> []) by discriminate.
  assert (H2 : js "deadbeef" <> expected_signature scenario_payload scenario_secret)
    by (vm_compute; discriminate).
  destruct (verifySignature_mixed_failure_discipline
              scenario_payload scenario_secret empty_world) as (Ha & Hb & _).
  split; [ exact H1 | split; [ exact H2 | split; [ exact Ha | ] ] ].
  exact (Hb (js "deadbeef") H1 H2).
Defined.

Lemma verifySignature_digest_format_witness :
  js "deadbeef" <> []
  /\ List.length (Buffer_from_utf8 (js "deadbeef")) <> 64%nat
  /\ hmac_runs (snd (verifySignature scenario_payload (js "deadbeef")
                       scenario_secret empty_world))
     = [(Buffer_from_utf8 scenario_secret, scenario_payload)]
  /\ (fst (verifySignature scenario_payload (js "deadbeef") scenario_secret empty_world)
      = Return false
      \/ fst (verifySignature scenario_payload (js "deadbeef") scenario_secret
                empty_world)
         = Throw (Error (js "The signature is invalid."))).
Proof.
  assert (H1 : js "deadbeef" <> []) by discriminate.
  assert (H2 : List.length (Buffer_from_utf8 (js "deadbeef")) <> 64%nat)
    by (vm_compute; discriminate).
  destruct (verifySignature_digest_format
              scenario_payload scenario_secret empty_world)
    as (_ & _ & _ & _ & _ & Hruns & Hlen).
  split; [ exact H1 | split; [ exact H2 | split ] ].
  - exact (Hruns (js "deadbeef") H1).
  - exact (Hlen (js "deadbeef") H2).
Defined.

(** C7 as stated fails: an accepting call writes to the console, which is
    state outside the function. *)
Lemma verifySignature_writes_to_console :
  outside (snd (verifySignature scenario_payload scenario_signature
                  scenario_secret empty_world))
  <> outside empty_world.
Proof. vm_compute. discriminate. Qed.

End Scenario.

(** ** The request dispatcher *)

Lemma bind_ret_r {A} (m : M A) (w : World) : bind m ret w = m w.
Proof. unfold bind, ret. destruct (m w) as [[a | e] w']; reflexivity. Qed.

Section ClientFacts.
Context `{Consts} `{Platform}.

(** What one call of [request] does: one [fetch], and an outcome read off
    the answer. *)
Lemma request_run (this : ChargilyClient) (endpoint : jsstring)
    (method : option jsstring) (body : option RequestBody) (w : World) :
  let rq :=
    mkRequest (base_url this ++ js "/" ++ endpoint)
              (match method with Some m => m | None => js "GET" end)
              [ (js "Authorization", js "Bearer " ++ api_key this);
                (js "Content-Type", js "application/json") ]
              (option_map JSON_stringify body) in
  request this endpoint method body w
  = (match reply (fetched w) rq with
     | Responded response =>
         if ok response then json response
         else Throw (Error (js "Failed to make API request: Error: API request failed with status "
                              ++ decimal (status response) ++ js ": "
                              ++ statusText response))
     | Failed error =>
         Throw (Error (js "Failed to make API request: " ++ error_toString error))
     end,
     with_fetched rq w).
Proof.
  intros rq. unfold request, bind, try_catch, fetch, throw, ret.
  destruct body as [b | ]; cbn [option_map] in rq; subst rq;
    cbn [Client.method Client.headers Client.body];
    (destruct (reply _ _) as [response | error]; [ | reflexivity ]);
    (destruct (ok response); cbn [negb];
     [ destruct (json response); reflexivity | reflexivity ]).
Qed.

Lemma request_outcome (this : ChargilyClient) (endpoint : jsstring)
    (method : option jsstring) (body : option RequestBody) (w : World) :
  exists rq,
    req_url rq = base_url this ++ js "/" ++ endpoint
    /\ In (js "Authorization", js "Bearer " ++ api_key this) (req_headers rq)
    /\ snd (request this endpoint method body w) = with_fetched rq w
    /\ fst (request this endpoint method body w)
       = match reply (fetched w) rq with
         | Responded response =>
             if ok response then json response
             else Throw (Error (js "Failed to make API request: Error: API request failed with status "
                                  ++ decimal (status response) ++ js ": "
                                  ++ statusText response))
         | Failed error =>
             Throw (Error (js "Failed to make API request: " ++ error_toString error))
         end.
Proof.
  rewrite request_run.
  match goal with |- context [with_fetched ?r w] => exists r end.
  split; [ reflexivity | split; [ left; reflexivity | split; reflexivity ] ].
Qed.

Lemma ok_false_iff (response : Response) :
  ok response = false <-> ~ (200 <= status response <= 299).
Proof.
  unfold ok. rewrite andb_false_iff, !N.leb_gt. lia.
Qed.

(** A public method either is one call of [request] or throws before
    doing anything. *)
Lemma invoke_cases (this : ChargilyClient) (call : Call) (w : World) :
  (exists endpoint method body,
      invoke this call w = request this endpoint method body w)
  \/ (exists e, invoke this call w = (Throw e, w)).
Proof.
  destruct call; cbn [invoke];
    try (left; eexists _, _, _; reflexivity);
    try (left; eexists _, _, _; apply bind_ret_r).
  unfold createCheckout.
  destruct (_ && _); [ right; eexists; reflexivity | ].
  destruct (_ && _); [ right; eexists; reflexivity | ].
  left; eexists _, _, _; reflexivity.
Qed.

Lemma startsWith_app (s p q : jsstring) :
  startsWith s (p ++ q) = true -> startsWith s p = true.
Proof.
  revert s. induction p as [ | c p IH]; intros [ | d s] E;
    try reflexivity; try discriminate.
  cbn [app startsWith] in *.
  apply andb_true_iff in E. destruct E as [E1 E2].
  rewrite E1. cbn [andb]. now apply IH.
Qed.

(** C8: [createCheckout] throws, and sends nothing, when [success_url]
    does not begin with [http], or when [items] is absent and [amount] or
    [currency] is absent. A string beginning with [https] begins with
    [http], so the test on [https] adds nothing: every [success_url]
    beginning with [http], [httpx] say, gets past the check. *)
Theorem createCheckout_validation
    (this : ChargilyClient) (checkout_data : CreateCheckoutParams) (w : World) :
  (startsWith (success_url checkout_data) (js "http") = false ->
   createCheckout this checkout_data w
   = (Throw (Error (js "Invalid success_url, it must begin with http or https.")), w))
  /\ (items checkout_data = None ->
      amount checkout_data = None \/ currency checkout_data = None ->
      exists e, createCheckout this checkout_data w = (Throw e, w))
  /\ (forall s, startsWith s (js "https") = true -> startsWith s (js "http") = true)
  /\ (forall s,
        negb (startsWith s (js "http")) && negb (startsWith s (js "https"))
        = negb (startsWith s (js "http")))
  /\ (startsWith (success_url checkout_data) (js "http") = true ->
      createCheckout this checkout_data w
      = if negb (truthy_opt truthy_array (items checkout_data))
           && (negb (truthy_opt Number_truthy (amount checkout_data))
               || negb (truthy_opt truthy_string (currency checkout_data)))
        then (Throw (Error (js "The items field is required when amount and currency are not present.")), w)
        else request this (js "checkouts") POST (Some (CheckoutBody checkout_data)) w)
  /\ startsWith (js "httpx") (js "http") = true.
Proof.
  assert (Hsub : forall s, startsWith s (js "https") = true ->
                           startsWith s (js "http") = true).
  { intros s. apply (startsWith_app s (js "http") (js "s")). }
  assert (Hcond : forall s,
             negb (startsWith s (js "http")) && negb (startsWith s (js "https"))
             = negb (startsWith s (js "http"))).
  { intros s. destruct (startsWith s (js "https")) eqn:E.
    - rewrite (Hsub s E). reflexivity.
    - destruct (startsWith s (js "http")); reflexivity. }
  refine (conj _ (conj _ (conj Hsub (conj Hcond (conj _ eq_refl))))).
  - intros E. unfold createCheckout. rewrite Hcond, E. reflexivity.
  - intros Hitems Hother. unfold createCheckout.
    destruct (_ && _); [ eexists; reflexivity | ].
    rewrite Hitems. cbn [truthy_opt negb andb].
    destruct Hother as [-> | ->]; cbn [truthy_opt negb orb].
    + eexists; reflexivity.
    + rewrite orb_true_r. eexists; reflexivity.
  - intros E. unfold createCheckout. rewrite Hcond, E. cbn [negb].
    destruct (_ && _); reflexivity.
Qed.

(** C9: an HTTP response whose status is not in 200..299 comes out of
    [request], and of every public method, as a thrown error, never as
    the response body. *)
Theorem non_2xx_response_is_thrown (this : ChargilyClient) (w : World) :
  (forall endpoint method body rq response,
      fetched (snd (request this endpoint method body w)) = fetched w ++ [rq] ->
      reply (fetched w) rq = Responded response ->
      ~ (200 <= status response <= 299) ->
      fst (request this endpoint method body w)
      = Throw (Error (js "Failed to make API request: Error: API request failed with status "
                         ++ decimal (status response) ++ js ": "
                         ++ statusText response)))
  /\ (forall call rq response,
        fetched (snd (invoke this call w)) = fetched w ++ [rq] ->
        reply (fetched w) rq = Responded response ->
        ~ (200 <= status response <= 299) ->
        exists e, fst (invoke this call w) = Throw e).
Proof.
  assert (Hreq : forall endpoint method body rq response,
      fetched (snd (request this endpoint method body w)) = fetched w ++ [rq] ->
      reply (fetched w) rq = Responded response ->
      ~ (200 <= status response <= 299) ->
      fst (request this endpoint method body w)
      = Throw (Error (js "Failed to make API request: Error: API request failed with status "
                         ++ decimal (status response) ++ js ": "
                         ++ statusText response))).
  { intros endpoint method body rq response Hsent Hreply Hstatus.
    destruct (request_outcome this endpoint method body w)
      as (rq0 & _ & _ & Hsnd & Hfst).
    rewrite Hsnd in Hsent. cbn [with_fetched fetched] in Hsent.
    apply app_inv_head in Hsent. injection Hsent as ->.
    rewrite Hfst, Hreply.
    apply ok_false_iff in Hstatus. rewrite Hstatus. reflexivity. }
  split; [ exact Hreq | ].
  intros call rq response Hsent Hreply Hstatus.
  destruct (invoke_cases this call w) as [(endpoint & method & body & E) | (e & E)];
    rewrite E in Hsent |- *.
  - eexists. eapply Hreq; eassumption.
  - eexists. reflexivity.
Qed.

(** C10: every request of a client goes to [base_url/endpoint], where
    [base_url] is the test URL for mode [test] and the live URL otherwise,
    and carries [Authorization: Bearer api_key], with the key given at
    construction. *)
Theorem requests_target_base_url_with_bearer
    (options : ChargilyClientOptions) (w : World) :
  let this := new_ChargilyClient options in
  (opt_mode options = test -> base_url this = CHARGILY_TEST_URL)
  /\ (opt_mode options <> test -> base_url this = CHARGILY_LIVE_URL)
  /\ (forall endpoint method body,
        exists rq,
          fetched (snd (request this endpoint method body w)) = fetched w ++ [rq]
          /\ req_url rq = base_url this ++ js "/" ++ endpoint
          /\ In (js "Authorization", js "Bearer " ++ opt_api_key options)
                (req_headers rq))
  /\ (forall call,
        exists issued,
          fetched (snd (invoke this call w)) = fetched w ++ issued
          /\ Forall (fun rq =>
                       (exists endpoint,
                           req_url rq = base_url this ++ js "/" ++ endpoint)
                       /\ In (js "Authorization", js "Bearer " ++ opt_api_key options)
                             (req_headers rq))
                    issued).
Proof.
  intros this.
  assert (Hreq : forall endpoint method body,
        exists rq,
          fetched (snd (request this endpoint method body w)) = fetched w ++ [rq]
          /\ req_url rq = base_url this ++ js "/" ++ endpoint
          /\ In (js "Authorization", js "Bearer " ++ opt_api_key options)
                (req_headers rq)).
  { intros endpoint method body.
    destruct (request_outcome this endpoint method body w)
      as (rq & Hurl & Hauth & Hsnd & _).
    exists rq. rewrite Hsnd. auto. }
  refine (conj _ (conj _ (conj Hreq _))).
  - intros E. subst this. unfold new_ChargilyClient. rewrite E. reflexivity.
  - intros E. subst this. unfold new_ChargilyClient.
    destruct (opt_mode options); [ congruence | reflexivity ].
  - intros call.
    destruct (invoke_cases this call w) as [(endpoint & method & body & E) | (e & E)];
      rewrite E.
    + destruct (Hreq endpoint method body) as (rq & Hsent & Hurl & Hauth).
      exists [rq]. split; [ exact Hsent | ].
      constructor; [ | constructor ]. split; [ eexists; exact Hurl | exact Hauth ].
    + exists []. split; [ cbn [snd]; now rewrite app_nil_r | constructor ].
Qed.

End ClientFacts.

(** ** The claims on the client, run in the sample setting *)

Lemma createCheckout_validation_witness :
  let this := @new_ChargilyClient sample_consts sample_options in
  let bad := sample_checkout (js "ftp://shop.example/paid") None None None in
  let odd := sample_checkout (js "httpx") (Some []) None None in
  startsWith (success_url bad) (js "http") = false
  /\ items bad = None
  /\ (amount bad = None \/ currency bad = None)
  /\ @createCheckout sample_values (sample_platform 200) this bad empty_world
     = (Throw (Error (js "Invalid success_url, it must begin with http or https.")),
        empty_world)
  /\ startsWith (success_url odd) (js "http") = true
  /\ @createCheckout sample_values (sample_platform 200) this odd empty_world
     = @request sample_values (sample_platform 200) this (js "checkouts") POST
         (Some (CheckoutBody odd)) empty_world.
Proof.
  intros this bad odd.
  assert (H1 : startsWith (success_url bad) (js "http") = false) by reflexivity.
  assert (H2 : items bad = None) by reflexivity.
  assert (H3 : amount bad = None \/ currency bad = None) by (left; reflexivity).
  assert (H4 : startsWith (success_url odd) (js "http") = true) by reflexivity.
  destruct (@createCheckout_validation sample_values (sample_platform 200)
              this bad empty_world) as (Ha & Hb & _).
  destruct (@createCheckout_validation sample_values (sample_platform 200)
              this odd empty_world) as (_ & _ & _ & _ & Hpass & _).
  pose proof (Hb H2 H3) as _.
  split; [ exact H1 | split; [ exact H2 | split; [ exact H3 | split ] ] ].
  - exact (Ha H1).
  - split; [ exact H4 | exact (Hpass H4) ].
Defined.

Lemma non_2xx_response_is_thrown_witness :
  let this := @new_ChargilyClient sample_consts sample_options in
  let rq :=
    mkRequest (js "https://pay.chargily.net/test/api/v2/balance") (js "GET")
              [ (js "Authorization", js "Bearer test_sk_123");
                (js "Content-Type", js "application/json") ]
              None in
  fetched (snd (@invoke sample_values (sample_platform 500) this GetBalance empty_world))
  = fetched empty_world ++ [rq]
  /\ @reply sample_values (sample_platform 500) (fetched empty_world) rq
     = Responded (sample_response 500)
  /\ ~ (200 <= status (sample_response 500) <= 299)
  /\ exists e,
       fst (@invoke sample_values (sample_platform 500) this GetBalance empty_world)
       = Throw e.
Proof.
  intros this rq.
  assert (H1 : fetched (snd (@invoke sample_values (sample_platform 500) this
                               GetBalance empty_world))
               = fetched empty_world ++ [rq]) by reflexivity.
  assert (H2 : @reply sample_values (sample_platform 500) (fetched empty_world) rq
               = Responded (sample_response 500)) by reflexivity.
  assert (H3 : ~ (200 <= status (sample_response 500) <= 299))
    by (cbn; lia).
  split; [ exact H1 | split; [ exact H2 | split; [ exact H3 | ] ] ].
  exact (proj2 (@non_2xx_response_is_thrown sample_values (sample_platform 500)
                  this empty_world)
               GetBalance rq (sample_response 500) H1 H2 H3).
Defined.

Lemma requests_target_base_url_with_bearer_witness :
  let live_options := {| opt_api_key := js "live_sk_456"; opt_mode := live |} in
  opt_mode sample_options = test
  /\ base_url (@new_ChargilyClient sample_consts sample_options)
     = js "https://pay.chargily.net/test/api/v2"
  /\ opt_mode live_options <> test
  /\ base_url (@new_ChargilyClient sample_consts live_options)
     = js "https://pay.chargily.net/api/v2".
Proof.
  intros live_options.
  assert (H1 : opt_mode sample_options = test) by reflexivity.
  assert (H2 : opt_mode live_options <> test) by discriminate.
  destruct (@requests_target_base_url_with_bearer sample_consts sample_values
              (sample_platform 200) sample_options empty_world) as (Ha & _).
  destruct (@requests_target_base_url_with_bearer sample_consts sample_values
              (sample_platform 200) live_options empty_world) as (_ & Hb & _).
  split; [ exact H1 | split; [ exact (Ha H1) | split; [ exact H2 | exact (Hb H2) ] ] ].
Defined.

(* ================================================================== *)
(** * Further properties of the code *)

(** ** The verifier: every way a call can end *)

Section VerifierOutcomes.
Context `{Crypto}.

(** [verifySignature] ends in one of three ways: [false] exactly for the
    empty signature, [true] exactly for the expected text, and otherwise
    the error [The signature is invalid.]; the length test in front of
    [timingSafeEqual] keeps its [RangeError] from ever coming out. *)
Theorem verifySignature_outcomes
    (payload : Buffer) (signature secretKey : jsstring) (w : World) :
  let r := fst (verifySignature payload signature secretKey w) in
  (r = Return false <-> signature = [])
  /\ (r = Return true <-> signature = expected_signature payload secretKey)
  /\ (forall e, r = Throw e -> e = Error (js "The signature is invalid.")).
Proof.
  intros r. subst r.
  destruct signature as [ | c s].
  - rewrite verifySignature_absent. cbn [fst].
    pose proof (expected_signature_length payload secretKey) as L.
    repeat split; try discriminate; try reflexivity.
    intros E. rewrite <- E in L. discriminate L.
  - destruct (list_eq_dec N.eq_dec (c :: s) (expected_signature payload secretKey))
      as [E | Hdiff].
    + rewrite E, verifySignature_match. cbn [fst]. rewrite <- E.
      repeat split; try discriminate; try reflexivity.
    + rewrite verifySignature_mismatch by (auto; discriminate). cbn [fst].
      repeat split; try discriminate; try congruence.
Qed.

End VerifierOutcomes.

(** ** The webhook endpoint of the README *)

Section EndpointFacts.
Context `{Crypto}.
Variable Event : Type.
Variable inspect : Event -> jsstring.
Variable API_SECRET_KEY : jsstring.

Lemma or_empty_cases (x : option jsstring) :
  (or_empty x = [] /\ (x = None \/ x = Some []))
  \/ (or_empty x <> [] /\ x = Some (or_empty x)).
Proof.
  destruct x as [[ | c s] | ]; cbn; auto.
  right. split; [ discriminate | reflexivity ].
Qed.

Lemma webhook_missing (req : Req Event) (res : Res) (w : World) :
  or_empty (get_signature req) = [] ->
  webhook Event inspect API_SECRET_KEY req res w
  = (Return (res ++ [400]),
     with_console_line (js "Signature header is missing") w).
Proof. intros E. unfold webhook. rewrite E. reflexivity. Qed.

Lemma webhook_valid (req : Req Event) (res : Res) (w : World) :
  or_empty (get_signature req) = expected_signature (rawBody req) API_SECRET_KEY ->
  webhook Event inspect API_SECRET_KEY req res w
  = (Return (res ++ [200]),
     with_console_line (inspect (body req))
       (with_console_line (js "The signature is valid")
          (with_hmac_run (Buffer_from_utf8 API_SECRET_KEY) (rawBody req) w))).
Proof.
  intros E. unfold webhook. rewrite E, expected_signature_truthy. cbn [negb].
  unfold bind at 1. unfold try_catch. unfold bind at 1.
  rewrite verifySignature_match. reflexivity.
Qed.

Lemma webhook_invalid (req : Req Event) (res : Res) (w : World) :
  or_empty (get_signature req) <> [] ->
  or_empty (get_signature req) <> expected_signature (rawBody req) API_SECRET_KEY ->
  webhook Event inspect API_SECRET_KEY req res w
  = (Return (res ++ [403]),
     with_console_line
       (js "Something happened while trying to process the request to the webhook")
       (with_hmac_run (Buffer_from_utf8 API_SECRET_KEY) (rawBody req) w)).
Proof.
  intros Hne Hdiff. unfold webhook. rewrite (truthy_nonempty _ Hne). cbn [negb].
  unfold bind at 1. unfold try_catch. unfold bind at 1.
  rewrite verifySignature_mismatch by assumption. reflexivity.
Qed.

(** The handler never lets an exception out and sends one status: [400]
    when the [signature] header is missing or empty, [200] when it is the
    expected text for the raw body, [403] for any other header. *)
Theorem webhook_status (req : Req Event) (res : Res) (w : World) :
  let expected := expected_signature (rawBody req) API_SECRET_KEY in
  let sent := fst (webhook Event inspect API_SECRET_KEY req res w) in
  (get_signature req = None \/ get_signature req = Some [] ->
   sent = Return (res ++ [400]))
  /\ (get_signature req = Some expected -> sent = Return (res ++ [200]))
  /\ (forall s, get_signature req = Some s -> s <> [] -> s <> expected ->
                sent = Return (res ++ [403]))
  /\ exists code, sent = Return (res ++ [code])
                  /\ (code = 400 \/ code = 200 \/ code = 403).
Proof.
  intros expected sent. subst sent.
  assert (Hvalid : get_signature req = Some expected ->
                   or_empty (get_signature req) = expected).
  { intros E. rewrite E. cbn [or_empty]. subst expected.
    rewrite expected_signature_truthy. reflexivity. }
  refine (conj _ (conj _ (conj _ _))).
  - intros E. rewrite webhook_missing; [ reflexivity | ].
    destruct E as [-> | ->]; reflexivity.
  - intros E. rewrite webhook_valid by auto. reflexivity.
  - intros s E Hne Hdiff.
    assert (Hs : or_empty (get_signature req) = s).
    { rewrite E. cbn [or_empty]. rewrite (truthy_nonempty _ Hne). reflexivity. }
    rewrite webhook_invalid; [ reflexivity | | ]; rewrite Hs; assumption.
  - destruct (or_empty_cases (get_signature req)) as [[E _] | [Hne _]].
    + exists 400. rewrite webhook_missing by exact E. auto.
    + destruct (list_eq_dec N.eq_dec (or_empty (get_signature req)) expected)
        as [E | Hdiff].
      * exists 200. rewrite webhook_valid by exact E. auto.
      * exists 403. rewrite webhook_invalid by assumption. auto.
Qed.

(** A header that does not verify is logged by the [catch] branch: the
    branch that would log [Signature is invalid] is never taken, for no
    request at all. A missing header costs no HMAC computation. *)
Theorem webhook_invalid_branch_is_dead (req : Req Event) (res : Res) (w : World) :
  let after := snd (webhook Event inspect API_SECRET_KEY req res w) in
  console after <> console w ++ [js "Signature is invalid"]
  /\ (forall s, get_signature req = Some s -> s <> [] ->
                s <> expected_signature (rawBody req) API_SECRET_KEY ->
                console after
                = console w
                  ++ [js "Something happened while trying to process the request to the webhook"])
  /\ (get_signature req = None \/ get_signature req = Some [] ->
      hmac_runs after = hmac_runs w)
  /\ fetched after = fetched w.
Proof.
  intros after. subst after.
  assert (Hcases :
    snd (webhook Event inspect API_SECRET_KEY req res w)
    = with_console_line (js "Signature header is missing") w
    \/ snd (webhook Event inspect API_SECRET_KEY req res w)
       = with_console_line (inspect (body req))
           (with_console_line (js "The signature is valid")
              (with_hmac_run (Buffer_from_utf8 API_SECRET_KEY) (rawBody req) w))
    \/ snd (webhook Event inspect API_SECRET_KEY req res w)
       = with_console_line
           (js "Something happened while trying to process the request to the webhook")
           (with_hmac_run (Buffer_from_utf8 API_SECRET_KEY) (rawBody req) w)).
  { destruct (or_empty_cases (get_signature req)) as [[E _] | [Hne _]].
    - left. rewrite webhook_missing by exact E. reflexivity.
    - destruct (list_eq_dec N.eq_dec (or_empty (get_signature req))
                  (expected_signature (rawBody req) API_SECRET_KEY)) as [E | Hdiff].
      + right; left. rewrite webhook_valid by exact E. reflexivity.
      + right; right. rewrite webhook_invalid by assumption. reflexivity. }
  refine (conj _ (conj _ (conj _ _))).
  - destruct Hcases as [E | [E | E]]; rewrite E;
      cbn [console with_console_line with_hmac_run]; intros Habs.
    + apply app_inv_head in Habs. discriminate Habs.
    + rewrite <- app_assoc in Habs. apply app_inv_head in Habs.
      discriminate Habs.
    + apply app_inv_head in Habs. discriminate Habs.
  - intros s E Hne Hdiff.
    assert (Hs : or_empty (get_signature req) = s).
    { rewrite E. cbn [or_empty]. rewrite (truthy_nonempty _ Hne). reflexivity. }
    rewrite webhook_invalid by (rewrite Hs; assumption). reflexivity.
  - intros E. rewrite webhook_missing; [ reflexivity | ].
    destruct E as [-> | ->]; reflexivity.
  - destruct Hcases as [E | [E | E]]; rewrite E; reflexivity.
Qed.

End EndpointFacts.

(** ** The dispatcher: what comes back, and what is sent *)

Lemma not_self_app {A} (l : list A) (x : A) : l <> l ++ [x].
Proof.
  intros E. apply (f_equal (@List.length A)) in E.
  rewrite length_app in E. cbn in E. lia.
Qed.

Section ClientOutcomes.
Context `{Consts} `{Platform}.

(** A public method that has sent [rq] ends as [request] does on the
    answer to [rq]. *)
Lemma invoke_outcome (this : ChargilyClient) (call : Call) (w : World)
    (rq : HttpRequest) :
  fetched (snd (invoke this call w)) = fetched w ++ [rq] ->
  fst (invoke this call w)
  = match reply (fetched w) rq with
    | Responded response =>
        if ok response then json response
        else Throw (Error (js "Failed to make API request: Error: API request failed with status "
                             ++ decimal (status response) ++ js ": "
                             ++ statusText response))
    | Failed error =>
        Throw (Error (js "Failed to make API request: " ++ error_toString error))
    end.
Proof.
  intros Hsent.
  destruct (invoke_cases this call w) as [(endpoint & method & body & E) | (e & E)];
    rewrite E in Hsent |- *.
  - destruct (request_outcome this endpoint method body w)
      as (rq0 & _ & _ & Hsnd & Hfst).
    rewrite Hsnd in Hsent. cbn [with_fetched fetched] in Hsent.
    apply app_inv_head in Hsent. injection Hsent as ->. exact Hfst.
  - cbn [snd] in Hsent. now apply not_self_app in Hsent.
Qed.

(** On a response with a status in 200..299 every public method ends as
    [response.json()] does: with the parsed value, or with the parser's
    own error, which the [catch] of [request] does not wrap. *)
Theorem success_response_settles_as_json
    (this : ChargilyClient) (call : Call) (w : World)
    (rq : HttpRequest) (response : Response) :
  fetched (snd (invoke this call w)) = fetched w ++ [rq] ->
  reply (fetched w) rq = Responded response ->
  200 <= status response <= 299 ->
  fst (invoke this call w) = json response.
Proof.
  intros Hsent Hreply Hstatus.
  rewrite (invoke_outcome this call w rq Hsent), Hreply.
  replace (ok response) with true; [ reflexivity | ].
  symmetry. unfold ok. apply andb_true_iff. split; apply N.leb_le; lia.
Qed.

(** When [fetch] itself fails, every public method throws an [Error]
    whose message is [Failed to make API request: ] followed by the text
    of the failure. *)
Theorem fetch_failure_is_wrapped
    (this : ChargilyClient) (call : Call) (w : World)
    (rq : HttpRequest) (error : JsError) :
  fetched (snd (invoke this call w)) = fetched w ++ [rq] ->
  reply (fetched w) rq = Failed error ->
  fst (invoke this call w)
  = Throw (Error (js "Failed to make API request: " ++ error_toString error)).
Proof.
  intros Hsent Hreply.
  rewrite (invoke_outcome this call w rq Hsent), Hreply. reflexivity.
Qed.



End ClientOutcomes.

(** ** The dispatcher: the shape of what is sent *)



Section ClientRequests.
Context `{Consts} `{Platform}.


(** With [items] absent, an [amount] that is falsy (zero, say) or a
    [currency] that is the empty string counts as missing: the call
    throws and sends nothing. *)
Theorem createCheckout_falsy_amount_or_currency
    (this : ChargilyClient) (checkout_data : CreateCheckoutParams) (w : World) :
  startsWith (success_url checkout_data) (js "http") = true ->
  items checkout_data = None ->
  (exists a, amount checkout_data = Some a /\ Number_truthy a = false)
  \/ currency checkout_data = Some [] ->
  createCheckout this checkout_data w
  = (Throw (Error (js "The items field is required when amount and currency are not present.")),
     w).
Proof.
  intros Hurl Hitems Hfalsy. unfold createCheckout.
  rewrite Hurl, Hitems. cbn [negb andb truthy_opt].
  destruct Hfalsy as [(a & -> & Ha) | ->]; cbn [truthy_opt].
  - rewrite Ha. reflexivity.
  - cbn [truthy_string negb]. rewrite orb_true_r. reflexivity.
Qed.


(** Identifiers go into the path as they are, nothing is escaped: the
    calls on a nested resource are the plain [get] calls on an identifier
    that spells the rest of the path. *)
Theorem identifiers_are_not_escaped
    (this : ChargilyClient) (id : jsstring) (n : JsNumber) (w : World) :
  getCheckoutItems this id (Some n) w
  = getCheckout this (id ++ js "/items?per_page=" ++ Number_toString n) w
  /\ getProductPrices this id (Some n) w
     = getProduct this (id ++ js "/prices?per_page=" ++ Number_toString n) w
  /\ getPaymentLinkItems this id (Some n) w
     = getPaymentLink this (id ++ js "/items?per_page=" ++ Number_toString n) w.
Proof.
  unfold getCheckoutItems, getCheckout, getProductPrices, getProduct,
         getPaymentLinkItems, getPaymentLink.
  rewrite !bind_ret_r. cbn [per_page_or_default].
  repeat split.
Qed.

End ClientRequests.

(** ** The further properties, run in the sample setting *)

Section FurtherScenario.
#[local] Existing Instance node_crypto.

Lemma verifySignature_outcomes_witness :
  scenario_signature = expected_signature scenario_payload scenario_secret
  /\ fst (verifySignature scenario_payload scenario_signature scenario_secret
            empty_world)
     = Return true.
Proof.
  assert (H1 : scenario_signature
               = expected_signature scenario_payload scenario_secret)
    by (vm_compute; reflexivity).
  destruct (verifySignature_outcomes scenario_payload scenario_signature
              scenario_secret empty_world) as (_ & Hacc & _).
  split; [ exact H1 | exact (proj2 Hacc H1) ].
Defined.

Lemma webhook_status_witness :
  get_signature (sample_req (Some (js "deadbeef"))) = Some (js "deadbeef")
  /\ js "deadbeef" <> []
  /\ js "deadbeef"
     <> expected_signature (rawBody (sample_req (Some (js "deadbeef")))) scenario_secret
  /\ fst (webhook jsstring (fun event => event) scenario_secret
            (sample_req (Some (js "deadbeef"))) [] empty_world)
     = Return [403].
Proof.
  assert (H1 : get_signature (sample_req (Some (js "deadbeef")))
               = Some (js "deadbeef")) by reflexivity.
  assert (H2 : js "deadbeef" <> []) by discriminate.
  assert (H3 : js "deadbeef"
               <> expected_signature (rawBody (sample_req (Some (js "deadbeef"))))
                    scenario_secret)
    by (vm_compute; discriminate).
  destruct (webhook_status jsstring (fun event => event) scenario_secret
              (sample_req (Some (js "deadbeef"))) [] empty_world)
    as (_ & _ & Hbad & _).
  split; [ exact H1 | split; [ exact H2 | split; [ exact H3 | ] ] ].
  exact (Hbad (js "deadbeef") H1 H2 H3).
Defined.

Lemma webhook_invalid_branch_is_dead_witness :
  get_signature (sample_req (Some (js "deadbeef"))) = Some (js "deadbeef")
  /\ js "deadbeef" <> []
  /\ js "deadbeef"
     <> expected_signature (rawBody (sample_req (Some (js "deadbeef")))) scenario_secret
  /\ console (snd (webhook jsstring (fun event => event) scenario_secret
                     (sample_req (Some (js "deadbeef"))) [] empty_world))
     = console empty_world
       ++ [js "Something happened while trying to process the request to the webhook"].
Proof.
  assert (H1 : get_signature (sample_req (Some (js "deadbeef")))
               = Some (js "deadbeef")) by reflexivity.
  assert (H2 : js "deadbeef" <> []) by discriminate.
  assert (H3 : js "deadbeef"
               <> expected_signature (rawBody (sample_req (Some (js "deadbeef"))))
                    scenario_secret)
    by (vm_compute; discriminate).
  destruct (webhook_invalid_branch_is_dead jsstring (fun event => event)
              scenario_secret (sample_req (Some (js "deadbeef"))) [] empty_world)
    as (_ & Hbad & _).
  split; [ exact H1 | split; [ exact H2 | split; [ exact H3 | ] ] ].
  exact (Hbad (js "deadbeef") H1 H2 H3).
Defined.

End FurtherScenario.

Lemma success_response_settles_as_json_witness :
  fetched (snd (@invoke sample_values garbled_platform sample_client GetBalance
                  empty_world))
  = fetched empty_world ++ [sample_balance_request]
  /\ fst (@invoke sample_values garbled_platform sample_client GetBalance empty_world)
     = Throw (mkError (js "SyntaxError") (js "Unexpected token")).
Proof.
  assert (H1 : fetched (snd (@invoke sample_values garbled_platform sample_client
                               GetBalance empty_world))
               = fetched empty_world ++ [sample_balance_request]) by reflexivity.
  split; [ exact H1 | ].
  refine (@success_response_settles_as_json sample_values garbled_platform
            sample_client GetBalance empty_world sample_balance_request _
            H1 eq_refl _).
  cbn. lia.
Defined.

Lemma fetch_failure_is_wrapped_witness :
  fetched (snd (@invoke sample_values offline_platform sample_client GetBalance
                  empty_world))
  = fetched empty_world ++ [sample_balance_request]
  /\ fst (@invoke sample_values offline_platform sample_client GetBalance empty_world)
     = Throw (Error (js "Failed to make API request: TypeError: fetch failed")).
Proof.
  assert (H1 : fetched (snd (@invoke sample_values offline_platform sample_client
                               GetBalance empty_world))
               = fetched empty_world ++ [sample_balance_request]) by reflexivity.
  split; [ exact H1 | ].
  exact (@fetch_failure_is_wrapped sample_values offline_platform
           sample_client GetBalance empty_world sample_balance_request _
           H1 eq_refl).
Defined.



Lemma createCheckout_falsy_amount_or_currency_witness :
  let zero := sample_checkout (js "https://shop.example/paid") None (Some 0)
                              (Some (js "dzd")) in
  startsWith (success_url zero) (js "http") = true
  /\ items zero = None
  /\ (exists a, amount zero = Some a /\ @Number_truthy sample_values a = false)
  /\ @createCheckout sample_values (sample_platform 200) sample_client zero empty_world
     = (Throw (Error (js "The items field is required when amount and currency are not present.")),
        empty_world).
Proof.
  intros zero.
  assert (H1 : startsWith (success_url zero) (js "http") = true) by reflexivity.
  assert (H2 : items zero = None) by reflexivity.
  assert (H3 : exists a, amount zero = Some a
                         /\ @Number_truthy sample_values a = false)
    by (exists 0; split; reflexivity).
  split; [ exact H1 | split; [ exact H2 | split; [ exact H3 | ] ] ].
  exact (@createCheckout_falsy_amount_or_currency sample_values
           (sample_platform 200) sample_client zero empty_world
           H1 H2 (or_introl H3)).
Defined.

